(** * A shallow embedding of the vehicle-record validation pipeline (main.py)

    Python values decoded from JSON are [jvalue]; a Python dict is an
    association list that keeps insertion order, as CPython's dict does.
    The functions of main.py that mutate the row in place are written in a
    small state-and-exception monad whose state is the row itself, so the
    row's state at the moment an exception is raised is observable, as it
    is in the [except] handler of [run]. *)

From Stdlib Require Import String Ascii List Bool Arith ZArith Lia.
Import ListNotations.
Open Scope string_scope.

(** ** Python values *)

#[local] Set Warnings "-register-all".

Inductive jvalue : Type :=
| JNull
| JBool (b : bool)
| JNum (z : Z)
| JStr (s : string)
| JArr (l : list jvalue)
| JObj (d : list (string * jvalue)).

(** Python exceptions that the pipeline can raise; the payload is the
    argument the exception was built with. *)
Inductive exn : Type :=
| KeyError (arg : string)
| ValueError (msg : string)
| TypeError (msg : string)
| JSONDecodeError (msg : string)
| UnboundLocalError (msg : string)
| FileNotFoundError (msg : string).

(** [str(err)]: a KeyError shows the repr of its argument (quoted),
    the other exceptions show their message. *)
Definition str_exn (e : exn) : string :=
  match e with
  | KeyError a => "'" ++ a ++ "'"
  | ValueError m | TypeError m | JSONDecodeError m
  | UnboundLocalError m | FileNotFoundError m => m
  end.

Definition type_name (v : jvalue) : string :=
  match v with
  | JNull => "NoneType"
  | JBool _ => "bool"
  | JNum _ => "int"
  | JStr _ => "str"
  | JArr _ => "list"
  | JObj _ => "dict"
  end.

(** ** Dicts as insertion-ordered association lists *)

Fixpoint dict_get (d : list (string * jvalue)) (k : string) : option jvalue :=
  match d with
  | [] => None
  | (k', v) :: d' => if String.eqb k k' then Some v else dict_get d' k
  end.

Definition has_key (d : list (string * jvalue)) (k : string) : bool :=
  match dict_get d k with Some _ => true | None => false end.

(** [d[k] = v]: an existing key keeps its position, a new key goes last. *)
Fixpoint dict_replace (d : list (string * jvalue)) (k : string) (v : jvalue)
  : list (string * jvalue) :=
  match d with
  | [] => []
  | (k', v') :: d' =>
      if String.eqb k k' then (k', v) :: d' else (k', v') :: dict_replace d' k v
  end.

Definition dict_set (d : list (string * jvalue)) (k : string) (v : jvalue)
  : list (string * jvalue) :=
  if has_key d k then dict_replace d k v else d ++ [(k, v)].

(** [del d[k]] for a key that is present (keys of a dict are unique, so
    dropping every binding of [k] drops the one binding). *)
Definition dict_del (d : list (string * jvalue)) (k : string) : list (string * jvalue) :=
  filter (fun kv => negb (String.eqb k (fst kv))) d.

(** ** Strings *)

Fixpoint is_substring_at (p s : string) : bool :=
  match p, s with
  | EmptyString, _ => true
  | String c p', String c' s' => Ascii.eqb c c' && is_substring_at p' s'
  | String _ _, EmptyString => false
  end.

(** Python's [p in s] for two strings. *)
Fixpoint str_contains (p s : string) : bool :=
  is_substring_at p s ||
  match s with
  | EmptyString => false
  | String _ s' => str_contains p s'
  end.

(** [str.isspace] on one character, reading a Rocq [ascii] as the code
    point of the same value: \t \n \v \f \r, \x1c-\x1f, space, \x85, \xa0. *)
Definition py_isspace (c : ascii) : bool :=
  let n := nat_of_ascii c in
  (  ((9 <=? n) && (n <=? 13)) || ((28 <=? n) && (n <=? 32))
  || (n =? 133) || (n =? 160))%nat.

Fixpoint lstrip (s : string) : string :=
  match s with
  | EmptyString => EmptyString
  | String c s' => if py_isspace c then lstrip s' else s
  end.

Fixpoint rstrip (s : string) : string :=
  match s with
  | EmptyString => EmptyString
  | String c s' =>
      match rstrip s' with
      | EmptyString => if py_isspace c then EmptyString else String c EmptyString
      | r => String c r
      end
  end.

(** [s.strip()] *)
Definition py_strip (s : string) : string := rstrip (lstrip s).

(** [s.replace("\n", ", ")] *)
Fixpoint replace_nl (s : string) : string :=
  match s with
  | EmptyString => EmptyString
  | String c s' =>
      if Ascii.eqb c "010"%char then ", " ++ replace_nl s' else String c (replace_nl s')
  end.

(** ** The row monad: state is the (mutable) row, failure is a raised
    exception; the row's state is kept when an exception is raised. *)

Definition M (A : Type) : Type := jvalue -> (exn + A) * jvalue.

Definition ret {A} (a : A) : M A := fun r => (inr a, r).
Definition raise {A} (e : exn) : M A := fun r => (inl e, r).
Definition bind {A B} (m : M A) (f : A -> M B) : M B :=
  fun r => match m r with
           | (inl e, r') => (inl e, r')
           | (inr a, r') => f a r'
           end.

Notation "x <- m1 ;; m2" := (bind m1 (fun x => m2))
  (at level 61, m1 at next level, right associativity).
Notation "m1 ;;; m2" := (bind m1 (fun _ => m2))
  (at level 61, right associativity).

(** [key in row] *)
Definition py_contains (key : string) : M bool :=
  fun r => match r with
           | JObj d => (inr (has_key d key), r)
           | JArr l => (inr (existsb (fun x => match x with
                                              | JStr s => String.eqb s key
                                              | _ => false end) l), r)
           | JStr s => (inr (str_contains key s), r)
           | _ => (inl (TypeError ("argument of type '" ++ type_name r
                                   ++ "' is not iterable")), r)
           end.

(** [row[key]] *)
Definition getitem (key : string) : M jvalue :=
  fun r => match r with
           | JObj d => match dict_get d key with
                       | Some v => (inr v, r)
                       | None => (inl (KeyError key), r)
                       end
           | JArr _ => (inl (TypeError "list indices must be integers or slices, not str"), r)
           | JStr _ => (inl (TypeError "string indices must be integers, not 'str'"), r)
           | _ => (inl (TypeError ("'" ++ type_name r ++ "' object is not subscriptable")), r)
           end.

(** [row[key] = v] *)
Definition setitem (key : string) (v : jvalue) : M unit :=
  fun r => match r with
           | JObj d => (inr tt, JObj (dict_set d key v))
           | JArr _ => (inl (TypeError "list indices must be integers or slices, not str"), r)
           | _ => (inl (TypeError ("'" ++ type_name r
                                   ++ "' object does not support item assignment")), r)
           end.

(** [del row[key]] *)
Definition delitem (key : string) : M unit :=
  fun r => match r with
           | JObj d => if has_key d key then (inr tt, JObj (dict_del d key))
                       else (inl (KeyError key), r)
           | JArr _ => (inl (TypeError "list indices must be integers or slices, not str"), r)
           | _ => (inl (TypeError ("'" ++ type_name r
                                   ++ "' object does not support item deletion")), r)
           end.

(** ** The address regular expression and Python's [re.match]

    A backtracking matcher in continuation-passing style for the fragment
    of regular expressions main.py uses: literals, a character class under
    greedy [+], a character class under [{n}], named groups and sequence.
    [re.match] anchors at the start and accepts any remaining suffix. *)

Inductive regex : Type :=
| RLit (c : ascii)
| RPlus (p : ascii -> bool)
| RRep (n : nat) (p : ascii -> bool)
| RGroup (name : string) (r : regex)
| RSeq (r1 r2 : regex).

Definition captures := list (string * string).

(** Longest prefix of [s] whose characters satisfy [p], and its length. *)
Fixpoint span_len (p : ascii -> bool) (s : string) : nat :=
  match s with
  | EmptyString => 0
  | String c s' => if p c then S (span_len p s') else 0
  end.

Fixpoint drop (n : nat) (s : string) : string :=
  match n, s with
  | 0, _ => s
  | S n', String _ s' => drop n' s'
  | S _, EmptyString => EmptyString
  end.

(** Try counts [i], [i-1], ..., [1]: greedy repetition backing off. *)
Fixpoint try_down {A} (i : nat) (f : nat -> option A) : option A :=
  match i with
  | 0 => None
  | S j => match f (S j) with
           | Some x => Some x
           | None => try_down j f
           end
  end.

Fixpoint take_rep (n : nat) (p : ascii -> bool) (s : string) : option string :=
  match n, s with
  | 0, _ => Some s
  | S n', String c s' => if p c then take_rep n' p s' else None
  | S _, EmptyString => None
  end.

(** The text of [s] consumed before the suffix [s'] remains. *)
Definition consumed (s s' : string) : string :=
  substring 0 (String.length s - String.length s') s.

Fixpoint rmatch {A} (r : regex) (s : string) (caps : captures)
         (k : string -> captures -> option A) : option A :=
  match r with
  | RLit c => match s with
              | String c' s' => if Ascii.eqb c c' then k s' caps else None
              | EmptyString => None
              end
  | RPlus p => try_down (span_len p s) (fun i => k (drop i s) caps)
  | RRep n p => match take_rep n p s with Some s' => k s' caps | None => None end
  | RGroup name r1 =>
      rmatch r1 s caps (fun s' caps' => k s' (caps' ++ [(name, consumed s s')])%list)
  | RSeq r1 r2 => rmatch r1 s caps (fun s' caps' => rmatch r2 s' caps' k)
  end.

Definition re_match (r : regex) (s : string) : option captures :=
  rmatch r s [] (fun _ caps => Some caps).

Fixpoint group (caps : captures) (name : string) : string :=
  match caps with
  | [] => EmptyString
  | (n, v) :: cs => if String.eqb n name then v else group cs name
  end.

Definition in_range (lo hi : nat) (c : ascii) : bool :=
  ((lo <=? nat_of_ascii c) && (nat_of_ascii c <=? hi))%nat.

Definition is_alnum (c : ascii) : bool :=
  in_range 97 122 c || in_range 65 90 c || in_range 48 57 c.

(** [[a-zA-Z0-9 .]] *)
Definition street_char (c : ascii) : bool :=
  is_alnum c || Ascii.eqb c " "%char || Ascii.eqb c "."%char.
(** [[a-zA-Z0-9 ]] *)
Definition city_char (c : ascii) : bool := is_alnum c || Ascii.eqb c " "%char.
(** [[A-Z]] *)
Definition upper_char (c : ascii) : bool := in_range 65 90 c.
(** [[0-9]] *)
Definition digit_char (c : ascii) : bool := in_range 48 57 c.

Fixpoint rseq (rs : list regex) : regex :=
  match rs with
  | [] => RLit "000"%char (* not reached *)
  | [r] => r
  | r :: rs' => RSeq r (rseq rs')
  end.

(** [(?P<street_address>[a-zA-Z0-9 .]+)\n(?P<city>[a-zA-Z0-9 ]+), (?P<state>[A-Z]{2}) (?P<zip>[0-9]{5})] *)
Definition address_regex : regex :=
  rseq [ RGroup "street_address" (RPlus street_char);
         RLit "010"%char;
         RGroup "city" (RPlus city_char);
         RLit ","%char; RLit " "%char;
         RGroup "state" (RRep 2 upper_char);
         RLit " "%char;
         RGroup "zip" (RRep 5 digit_char) ].

(** ** The validation steps of main.py *)

(** [transform_address(row)] *)
Definition transform_address : M bool :=
  a <- getitem "registered_address" ;;
  match a with
  | JStr s =>
      match re_match address_regex s with
      | Some result =>
          setitem "street_address" (JStr (group result "street_address")) ;;;
          setitem "city" (JStr (group result "city")) ;;;
          setitem "state" (JStr (group result "state")) ;;;
          setitem "zip" (JStr (group result "zip")) ;;;
          delitem "registered_address" ;;;
          ret true
      | None =>
          let address := replace_nl (py_strip s) in
          raise (ValueError ("Unknown address format: " ++ address))
      end
  | v => raise (TypeError ("expected string or bytes-like object, got '"
                           ++ type_name v ++ "'"))
  end.

(** [VALID_FIELDS] *)
Definition VALID_FIELDS : list string :=
  ["license_plate"; "make_model"; "year"; "registered_name";
   "registered_address"; "registered_date"].

(** [check_schema(row, required_fields)] *)
Fixpoint check_schema_fields (required_fields : list string) : M bool :=
  match required_fields with
  | [] => ret true
  | field :: rest =>
      present <- py_contains field ;;
      if present then check_schema_fields rest
      else raise (KeyError ("Missing required field: " ++ field))
  end.

Definition check_schema : M bool := check_schema_fields VALID_FIELDS.

Definition is_none (v : jvalue) : bool :=
  match v with JNull => true | _ => false end.

(** [null_check(row, required_fields)] *)
Fixpoint null_check_fields (required_fields : list string) : M bool :=
  match required_fields with
  | [] => ret true
  | field :: rest =>
      v <- getitem field ;;
      if is_none v then raise (ValueError (field ++ " cannot be Null."))
      else null_check_fields rest
  end.

Definition null_check : M bool := null_check_fields VALID_FIELDS.

(** The body of the [try] block of [run] after [json.loads]. *)
Definition process_row : M bool :=
  check_schema ;;; null_check ;;; transform_address.

(** ** [run(file_name, print_lines)] *)

(** Console output: the per-row lines carry the row itself (its [repr] is
    not modelled); the summary lines are text. *)
Inductive out_line : Type :=
| LineOk (line_num : nat) (row : jvalue)
| LineError (line_num : nat) (msg : string) (row : jvalue)
| LineText (s : string).

Fixpoint digits_fuel (fuel n : nat) (acc : string) : string :=
  match fuel with
  | 0 => acc
  | S f =>
      let acc' := String (ascii_of_nat (48 + n mod 10)) acc in
      if (n <? 10)%nat then acc' else digits_fuel f (n / 10) acc'
  end.

(** [f"{n}"] for a natural number. *)
Definition show_nat (n : nat) : string := digits_fuel (S n) n EmptyString.

(** [f"{n:04d}"] *)
Definition pad4 (n : nat) : string :=
  let s := show_nat n in
  append (String.concat EmptyString (repeat "0" (4 - String.length s))) s.

Record run_state : Type := mk_state {
  row : option jvalue;      (* [row], unbound before the first [json.loads] succeeds *)
  line_num : nat;
  ok_count : nat;
  reject_count : nat;
  output : list out_line
}.

Definition init_state : run_state := mk_state None 1 0 0 [].

Definition unbound_row_msg : string :=
  "cannot access local variable 'row' where it is not associated with a value".

Section Run.

(** [json.loads], applied to the stripped line. *)
Variable json_loads : string -> exn + jvalue.
Variable print_lines : bool.

(** The [except] and [finally] clauses: the handler reads [row], which
    raises if [row] was never bound; otherwise the rejection is counted. *)
Definition on_error (st : run_state) (r : option jvalue) (err : exn)
  : (exn * list out_line) + run_state :=
  match r with
  | None => inl (UnboundLocalError unbound_row_msg, output st)
  | Some rv =>
      inr (mk_state (Some rv) (S (line_num st)) (ok_count st) (S (reject_count st))
                    (output st ++ [LineError (line_num st) (str_exn err) rv]))
  end.

(** One iteration of [for line in json_file]. *)
Definition run_line (st : run_state) (line : string)
  : (exn * list out_line) + run_state :=
  match json_loads (py_strip line) with
  | inl err => on_error st (row st) err
  | inr v =>
      match process_row v with
      | (inl err, v') => on_error st (Some v') err
      | (inr _, v') =>
          inr (mk_state (Some v') (S (line_num st)) (S (ok_count st)) (reject_count st)
                        (if print_lines then output st ++ [LineOk (line_num st) v']
                         else output st))
      end
  end.

Fixpoint run_lines (st : run_state) (lines : list string)
  : (exn * list out_line) + run_state :=
  match lines with
  | [] => inr st
  | l :: ls => match run_line st l with
               | inl e => inl e
               | inr st' => run_lines st' ls
               end
  end.

(** The observable outcome of a call to [run]: either it returns, having
    printed [out] (with the final counters), or an exception escapes
    after [out] was printed. *)
Inductive outcome : Type :=
| Finished (out : list out_line) (rows_read ok rejected : nat)
| Raised (e : exn) (out : list out_line).

Definition summary (st : run_state) : list out_line :=
  [LineText ("Read " ++ show_nat (line_num st - 1) ++ " rows");
   LineText ("OK rows: " ++ pad4 (ok_count st) ++ ", Rejected rows: "
             ++ pad4 (reject_count st))].

(** [file] is the file's lines, or [None] when [open] fails. *)
Definition run (file : option (list string)) : outcome :=
  match file with
  | None => Raised (FileNotFoundError "No such file or directory") []
  | Some lines =>
      match run_lines init_state lines with
      | inl (e, out) => Raised e out
      | inr st => Finished (output st ++ summary st)
                           (line_num st - 1) (ok_count st) (reject_count st)
      end
  end.

End Run.

(** ** Vocabulary for stating the properties *)

Fixpoint all_chars (p : ascii -> bool) (s : string) : bool :=
  match s with
  | EmptyString => true
  | String c s' => p c && all_chars p s'
  end.

(** [t] is empty or does not start with a character of [p]. *)
Definition head_not (p : ascii -> bool) (t : string) : bool :=
  match t with
  | EmptyString => true
  | String c _ => negb (p c)
  end.

Definition nonempty (s : string) : bool :=
  match s with EmptyString => false | String _ _ => true end.

(** The four components of a two-line address: a street of
    [[a-zA-Z0-9 .]], a city of [[a-zA-Z0-9 ]], two capitals, five digits. *)
Definition address_parts (street city state zip : string) : bool :=
  nonempty street && all_chars street_char street
  && nonempty city && all_chars city_char city
  && (String.length state =? 2)%nat && all_chars upper_char state
  && (String.length zip =? 5)%nat && all_chars digit_char zip.

(** [street "\n" city ", " state " " zip] followed by [rest]. *)
Definition two_line (street city state zip rest : string) : string :=
  street ++ String "010"%char (city ++ ", " ++ state ++ " " ++ zip ++ rest).

Fixpoint last_char (s : string) : option ascii :=
  match s with
  | EmptyString => None
  | String c EmptyString => Some c
  | String _ s' => last_char s'
  end.

(** Neither the first nor the last character of [s] is whitespace. *)
Definition trimmed (s : string) : bool :=
  match s, last_char s with
  | String c _, Some l => negb (py_isspace c) && negb (py_isspace l)
  | _, _ => true
  end.

(** The six required fields are present and none of them is [None]. *)
Definition fields_non_null (d : list (string * jvalue)) : Prop :=
  forall f, In f VALID_FIELDS -> exists v, dict_get d f = Some v /\ v <> JNull.

(** ** Sample inputs: the record of the spec's scenarios *)

Definition dq : string := String "034"%char EmptyString.
Definition jq (s : string) : string := dq ++ s ++ dq.

Definition vehicle (address : jvalue) : list (string * jvalue) :=
  [("license_plate", JStr "ABC123"); ("make_model", JStr "Ford Focus");
   ("year", JNum 2020); ("registered_name", JStr "Jane Doe");
   ("registered_address", address); ("registered_date", JStr "2023-01-01")].

Definition springfield : string := two_line "123 Main St" "Springfield" "IL" "62704" EmptyString.

(** The JSON text of the scenario-1 line (the address escape is the two
    characters backslash and n). *)
Definition scenario1_line : string :=
  "{" ++ jq "license_plate" ++ ":" ++ jq "ABC123" ++ ","
  ++ jq "make_model" ++ ":" ++ jq "Ford Focus" ++ ","
  ++ jq "year" ++ ":2020,"
  ++ jq "registered_name" ++ ":" ++ jq "Jane Doe" ++ ","
  ++ jq "registered_address" ++ ":" ++ jq "123 Main St\nSpringfield, IL 62704" ++ ","
  ++ jq "registered_date" ++ ":" ++ jq "2023-01-01" ++ "}".

(** [json.loads] on the lines of a sample file: the scenario-1 line
    decodes to its record; the other sample line, [not json], is not JSON. *)
Definition sample_loads (s : string) : exn + jvalue :=
  if String.eqb s scenario1_line then inr (JObj (vehicle (JStr springfield)))
  else inl (JSONDecodeError "Expecting value: line 1 column 1 (char 0)").

(** Line number of a per-row output line. *)
Definition out_line_num (o : out_line) : option nat :=
  match o with
  | LineOk n _ | LineError n _ _ => Some n
  | LineText _ => None
  end.

Definition is_error_line (o : out_line) : bool :=
  match o with LineError _ _ _ => true | _ => false end.

(** The loop state without the console output. *)
Definition counters (st : run_state) : option jvalue * nat * nat * nat :=
  (row st, line_num st, ok_count st, reject_count st).

(** ** Lemmas on strings and dicts *)

Lemma append_nil_r (s : string) : s ++ EmptyString = s.
Proof. induction s as [|c s IH]; simpl; [reflexivity | now rewrite IH]. Qed.

Lemma append_assoc_str (a b c : string) : (a ++ b) ++ c = a ++ (b ++ c).
Proof. induction a as [|x a IH]; simpl; [reflexivity | now rewrite IH]. Qed.

Lemma length_append_str (a b : string) :
  String.length (a ++ b) = String.length a + String.length b.
Proof. induction a as [|x a IH]; simpl; lia. Qed.

Lemma drop_append (a t : string) : drop (String.length a) (a ++ t) = t.
Proof. induction a as [|x a IH]; simpl; auto. Qed.

Lemma consumed_append (a t : string) : consumed (a ++ t) t = a.
Proof.
  unfold consumed. rewrite length_append_str.
  replace (String.length a + String.length t - String.length t) with (String.length a) by lia.
  induction a as [|x a IH]; simpl.
  - destruct t; reflexivity.
  - now rewrite IH.
Qed.

Lemma span_len_append (p : ascii -> bool) (a t : string) :
  all_chars p a = true -> head_not p t = true ->
  span_len p (a ++ t) = String.length a.
Proof.
  intros Ha Ht. induction a as [|x a IH]; simpl in *.
  - destruct t as [|c t]; simpl in *; [reflexivity|].
    destruct (p c); simpl in Ht; [discriminate | reflexivity].
  - apply andb_prop in Ha as [Hx Ha]. rewrite Hx. f_equal. auto.
Qed.

Lemma take_rep_append (n : nat) (p : ascii -> bool) (a t : string) :
  String.length a = n -> all_chars p a = true -> take_rep n p (a ++ t) = Some t.
Proof.
  revert n. induction a as [|x a IH]; intros n Hn Ha; subst; simpl in *; [reflexivity|].
  apply andb_prop in Ha as [Hx Ha]. rewrite Hx. auto.
Qed.

Lemma rmatch_seq {A} r1 r2 s caps (k : string -> captures -> option A) :
  rmatch (RSeq r1 r2) s caps k = rmatch r1 s caps (fun s' c' => rmatch r2 s' c' k).
Proof. reflexivity. Qed.

Lemma rmatch_lit {A} c s caps (k : string -> captures -> option A) :
  rmatch (RLit c) (String c s) caps k = k s caps.
Proof. simpl. now rewrite Ascii.eqb_refl. Qed.

(** A greedy [+] group over a run [a] that stops before [t] captures [a]
    whenever the rest of the pattern succeeds on [t]. *)
Lemma rmatch_group_plus {A} nm p a t caps (k : string -> captures -> option A) x :
  nonempty a = true -> all_chars p a = true -> head_not p t = true ->
  k t (caps ++ [(nm, a)])%list = Some x ->
  rmatch (RGroup nm (RPlus p)) (a ++ t) caps k = Some x.
Proof.
  intros Hne Ha Ht Hk. simpl.
  rewrite (span_len_append p a t Ha Ht).
  assert (Hn : exists n, String.length a = S n)
    by (destruct a; [discriminate | eexists; reflexivity]).
  destruct Hn as [n Hn]. rewrite Hn.
  change (try_down (S n) ?f) with (match f (S n) with Some y => Some y | None => try_down n f end).
  cbv beta. rewrite <- Hn.
  rewrite drop_append, consumed_append, Hk. reflexivity.
Qed.

Lemma rmatch_group_rep {A} nm n p a t caps (k : string -> captures -> option A) :
  String.length a = n -> all_chars p a = true ->
  rmatch (RGroup nm (RRep n p)) (a ++ t) caps k = k t (caps ++ [(nm, a)])%list.
Proof.
  intros Hn Ha. simpl. rewrite (take_rep_append n p a t Hn Ha), consumed_append.
  reflexivity.
Qed.

Lemma address_parts_spec st ci sa z :
  address_parts st ci sa z = true ->
  nonempty st = true /\ all_chars street_char st = true /\
  nonempty ci = true /\ all_chars city_char ci = true /\
  String.length sa = 2 /\ all_chars upper_char sa = true /\
  String.length z = 5 /\ all_chars digit_char z = true.
Proof.
  unfold address_parts. intros H.
  repeat match goal with
         | H : _ && _ = true |- _ => apply andb_prop in H as [? ?]
         | H : (_ =? _)%nat = true |- _ => apply Nat.eqb_eq in H
         end.
  repeat split; assumption.
Qed.

(** [re.match] of the address pattern on a two-line address captures
    exactly its four components, whatever follows the zip code. *)
Lemma re_match_two_line st ci sa z rest :
  address_parts st ci sa z = true ->
  re_match address_regex (two_line st ci sa z rest)
  = Some [("street_address", st); ("city", ci); ("state", sa); ("zip", z)].
Proof.
  intros H. apply address_parts_spec in H.
  destruct H as (Hst & Hst' & Hci & Hci' & Hsa & Hsa' & Hz & Hz').
  unfold re_match, address_regex, two_line. simpl rseq.
  rewrite rmatch_seq. apply rmatch_group_plus; [assumption | assumption | reflexivity |].
  rewrite rmatch_seq, rmatch_lit, rmatch_seq.
  apply rmatch_group_plus; [assumption | assumption | reflexivity |].
  simpl append. rewrite rmatch_seq, rmatch_lit, rmatch_seq, rmatch_lit, rmatch_seq.
  rewrite rmatch_group_rep by assumption.
  simpl append. rewrite rmatch_seq, rmatch_lit.
  rewrite rmatch_group_rep by assumption.
  reflexivity.
Qed.

(** A string whose first character is not a street character has no
    match at position 0. *)
Lemma re_match_bad_first c s :
  street_char c = false -> re_match address_regex (String c s) = None.
Proof.
  intros Hc. unfold re_match, address_regex. simpl rseq.
  simpl. rewrite Hc. reflexivity.
Qed.

Lemma dict_get_app d1 d2 k :
  dict_get (d1 ++ d2) k = match dict_get d1 k with
                          | Some v => Some v
                          | None => dict_get d2 k
                          end.
Proof.
  induction d1 as [|[k' v'] d1 IH]; simpl; [reflexivity|].
  destruct (String.eqb k k'); auto.
Qed.

Lemma dict_get_replace d k k' v :
  dict_get (dict_replace d k v) k' =
  if String.eqb k' k then (if has_key d k then Some v else None)
  else dict_get d k'.
Proof.
  unfold has_key. induction d as [|[k0 v0] d IH]; simpl.
  - destruct (String.eqb k' k); reflexivity.
  - destruct (String.eqb k k0) eqn:E1; simpl.
    + apply String.eqb_eq in E1; subst k0.
      destruct (String.eqb k' k); reflexivity.
    + destruct (String.eqb k' k0) eqn:E2.
      * apply String.eqb_eq in E2; subst k0.
        destruct (String.eqb k' k) eqn:E3; [|reflexivity].
        apply String.eqb_eq in E3; subst k'. now rewrite String.eqb_refl in E1.
      * exact IH.
Qed.

Lemma dict_get_set d k k' v :
  dict_get (dict_set d k v) k' =
  if String.eqb k' k then Some v else dict_get d k'.
Proof.
  unfold dict_set. destruct (has_key d k) eqn:Hk.
  - rewrite dict_get_replace, Hk. reflexivity.
  - rewrite dict_get_app. unfold has_key in Hk.
    destruct (String.eqb k' k) eqn:E.
    + apply String.eqb_eq in E; subst k'.
      destruct (dict_get d k); [discriminate|]. simpl. now rewrite String.eqb_refl.
    + destruct (dict_get d k'); [reflexivity|]. simpl. now rewrite E.
Qed.

Lemma dict_get_del d k k' :
  dict_get (dict_del d k) k' = if String.eqb k' k then None else dict_get d k'.
Proof.
  unfold dict_del. induction d as [|[k0 v0] d IH]; simpl.
  - destruct (String.eqb k' k); reflexivity.
  - destruct (String.eqb k k0) eqn:E1; simpl.
    + apply String.eqb_eq in E1; subst k0. rewrite IH.
      destruct (String.eqb k' k); reflexivity.
    + destruct (String.eqb k' k0) eqn:E2; [|exact IH].
      apply String.eqb_eq in E2; subst k0.
      rewrite String.eqb_sym, E1. reflexivity.
Qed.

Lemma has_key_set d k k' v :
  has_key (dict_set d k v) k' = String.eqb k' k || has_key d k'.
Proof.
  unfold has_key at 1. rewrite dict_get_set.
  destruct (String.eqb k' k); reflexivity.
Qed.

(** ** The three checks on a dict *)

Lemma check_schema_fields_ok d fields :
  (forall f, In f fields -> has_key d f = true) ->
  check_schema_fields fields (JObj d) = (inr true, JObj d).
Proof.
  induction fields as [|f fs IH]; intros H; simpl; unfold bind; simpl;
    [reflexivity|].
  rewrite (H f (or_introl eq_refl)). apply IH. intros g Hg. apply H. now right.
Qed.

Lemma check_schema_fields_first_missing d pre f post :
  (forall g, In g pre -> has_key d g = true) -> has_key d f = false ->
  check_schema_fields (pre ++ f :: post) (JObj d)
  = (inl (KeyError ("Missing required field: " ++ f)), JObj d).
Proof.
  induction pre as [|g pre IH]; intros Hpre Hf; simpl; unfold bind; simpl.
  - rewrite Hf. reflexivity.
  - rewrite (Hpre g (or_introl eq_refl)). apply IH; [|exact Hf].
    intros g' Hg'. apply Hpre. now right.
Qed.

Lemma null_check_fields_ok d fields :
  (forall f, In f fields -> exists v, dict_get d f = Some v /\ v <> JNull) ->
  null_check_fields fields (JObj d) = (inr true, JObj d).
Proof.
  induction fields as [|f fs IH]; intros H; simpl; unfold bind; simpl;
    [reflexivity|].
  destruct (H f (or_introl eq_refl)) as [v [Hv Hnn]]. rewrite Hv.
  destruct v; try (apply IH; intros g Hg; apply H; now right).
  contradiction.
Qed.

Lemma null_check_fields_first_null d pre f post :
  (forall g, In g pre -> exists v, dict_get d g = Some v /\ v <> JNull) ->
  dict_get d f = Some JNull ->
  null_check_fields (pre ++ f :: post) (JObj d)
  = (inl (ValueError (f ++ " cannot be Null.")), JObj d).
Proof.
  induction pre as [|g pre IH]; intros Hpre Hf; simpl; unfold bind; simpl.
  - rewrite Hf. reflexivity.
  - destruct (Hpre g (or_introl eq_refl)) as [v [Hv Hnn]]. rewrite Hv.
    destruct v; try (apply IH; [intros g' Hg'; apply Hpre; now right | exact Hf]).
    contradiction.
Qed.

Lemma fields_non_null_has_key d :
  fields_non_null d -> forall f, In f VALID_FIELDS -> has_key d f = true.
Proof.
  intros H f Hf. destruct (H f Hf) as [v [Hv _]]. unfold has_key. now rewrite Hv.
Qed.

Lemma process_row_schema_error r e r' :
  check_schema r = (inl e, r') -> process_row r = (inl e, r').
Proof. intros H. unfold process_row, bind. now rewrite H. Qed.

Lemma process_row_after_checks d :
  fields_non_null d -> process_row (JObj d) = transform_address (JObj d).
Proof.
  intros H. unfold process_row, bind at 1, check_schema.
  rewrite (check_schema_fields_ok d VALID_FIELDS (fields_non_null_has_key d H)).
  unfold bind, null_check. rewrite (null_check_fields_ok d VALID_FIELDS H).
  reflexivity.
Qed.

(** On a match, [transform_address] writes the four groups and deletes
    the raw address. *)
Lemma transform_address_match d s caps :
  dict_get d "registered_address" = Some (JStr s) ->
  re_match address_regex s = Some caps ->
  transform_address (JObj d)
  = (inr true,
     JObj (dict_del
             (dict_set (dict_set (dict_set (dict_set d
                "street_address" (JStr (group caps "street_address")))
                "city" (JStr (group caps "city")))
                "state" (JStr (group caps "state")))
                "zip" (JStr (group caps "zip")))
             "registered_address")).
Proof.
  intros Hget Hm. unfold transform_address, bind at 1. simpl getitem.
  rewrite Hget, Hm. cbv [bind setitem delitem ret].
  rewrite !has_key_set. simpl. unfold has_key at 1. rewrite Hget. reflexivity.
Qed.

(** On no match, [transform_address] raises and leaves the row as it was. *)
Lemma transform_address_no_match d s :
  dict_get d "registered_address" = Some (JStr s) ->
  re_match address_regex s = None ->
  transform_address (JObj d)
  = (inl (ValueError ("Unknown address format: " ++ replace_nl (py_strip s))), JObj d).
Proof.
  intros Hget Hm. unfold transform_address, bind. simpl getitem.
  rewrite Hget, Hm. reflexivity.
Qed.

(** ** [str.strip] removes exactly the outer whitespace *)

Lemma lstrip_split s :
  exists lead, s = lead ++ lstrip s /\ all_chars py_isspace lead = true
               /\ head_not py_isspace (lstrip s) = true.
Proof.
  induction s as [|c s IH]; simpl.
  - exists EmptyString; auto.
  - destruct (py_isspace c) eqn:Ec.
    + destruct IH as (lead & Hs & Hl & Hh).
      exists (String c lead). simpl. rewrite Ec, Hl, <- Hs. auto.
    + exists EmptyString. simpl. rewrite Ec. auto.
Qed.

Lemma rstrip_split s :
  exists trail, s = rstrip s ++ trail /\ all_chars py_isspace trail = true
                /\ (rstrip s = EmptyString \/
                    exists l, last_char (rstrip s) = Some l /\ py_isspace l = false).
Proof.
  induction s as [|c s IH]; simpl.
  - exists EmptyString; auto.
  - destruct IH as (tr & Hs & Ht & Hl).
    destruct (rstrip s) as [|c0 r0] eqn:E.
    + destruct (py_isspace c) eqn:Ec.
      * exists (String c tr). simpl in *. rewrite Ec, Ht, Hs. auto.
      * exists tr. simpl in *. rewrite Hs. split; [reflexivity|].
        split; [exact Ht|]. right. exists c. auto.
    + exists tr. simpl in *. rewrite Hs. split; [reflexivity|].
      split; [exact Ht|]. right.
      destruct Hl as [Hl | Hl]; [discriminate | exact Hl].
Qed.

Lemma rstrip_head s :
  head_not py_isspace s = true -> head_not py_isspace (rstrip s) = true.
Proof.
  destruct s as [|c s]; simpl; [reflexivity|]. intros Hc.
  destruct (rstrip s); [|exact Hc].
  destruct (py_isspace c) eqn:Ec; [reflexivity|]. simpl. now rewrite Ec.
Qed.

Lemma py_strip_split s :
  exists lead trail, s = lead ++ py_strip s ++ trail
                     /\ all_chars py_isspace lead = true
                     /\ all_chars py_isspace trail = true
                     /\ trimmed (py_strip s) = true.
Proof.
  destruct (lstrip_split s) as (lead & Hs & Hl & Hh).
  destruct (rstrip_split (lstrip s)) as (tr & Hs' & Ht & Hlast).
  exists lead, tr. unfold py_strip. split; [|split; [exact Hl|split; [exact Ht|]]].
  - rewrite Hs at 1. rewrite Hs' at 1. reflexivity.
  - apply rstrip_head in Hh. unfold trimmed.
    destruct (rstrip (lstrip s)) as [|c r] eqn:E; [reflexivity|].
    destruct Hlast as [Hlast | (l & Hl' & Hsp)]; [discriminate|].
    rewrite Hl'. simpl in Hh. rewrite Hh, Hsp. reflexivity.
Qed.

(** ** Counters of the [run] loop *)

Section RunFacts.

Variable json_loads : string -> exn + jvalue.
Variable print_lines : bool.

Lemma run_line_step st l st' :
  run_line json_loads print_lines st l = inr st' ->
  line_num st' = S (line_num st) /\
  ((ok_count st' = S (ok_count st) /\ reject_count st' = reject_count st) \/
   (ok_count st' = ok_count st /\ reject_count st' = S (reject_count st))).
Proof.
  unfold run_line, on_error.
  destruct (json_loads (py_strip l)) as [err | v].
  - destruct (row st); intros H; inversion H; subst; simpl; auto.
  - destruct (process_row v) as [[err | b] v'].
    + intros H; inversion H; subst; simpl; auto.
    + intros H; inversion H; subst; simpl; auto.
Qed.

Lemma run_lines_counts lines st st' :
  run_lines json_loads print_lines st lines = inr st' ->
  ok_count st' + reject_count st' = ok_count st + reject_count st + length lines
  /\ line_num st' = line_num st + length lines.
Proof.
  revert st. induction lines as [|l ls IH]; intros st H; simpl in H.
  - inversion H; subst. simpl. lia.
  - destruct (run_line json_loads print_lines st l) as [e | st1] eqn:E; [discriminate|].
    destruct (IH st1 H) as [H1 H2].
    destruct (run_line_step st l st1 E) as [H3 [[H4 H5] | [H4 H5]]];
      simpl; lia.
Qed.

End RunFacts.

(** ** Failure of the address pattern *)

Lemma try_down_none {A} n (f : nat -> option A) :
  (forall i, 1 <= i <= n -> f i = None) -> try_down n f = None.
Proof.
  induction n as [|n IH]; intros H; simpl; [reflexivity|].
  rewrite (H (S n)) by lia. apply IH. intros i Hi. apply H. lia.
Qed.

Lemma rmatch_group_plus_none {A} nm p s caps (k : string -> captures -> option A) :
  (forall i, 1 <= i <= span_len p s ->
             k (drop i s) (caps ++ [(nm, consumed s (drop i s))])%list = None) ->
  rmatch (RGroup nm (RPlus p)) s caps k = None.
Proof. intros H. simpl. apply try_down_none. exact H. Qed.

Lemma rmatch_lit_none {A} c c' r caps (k : string -> captures -> option A) :
  c <> c' -> rmatch (RLit c) (String c' r) caps k = None.
Proof.
  intros Hne. simpl. destruct (Ascii.eqb c c') eqn:E; [|reflexivity].
  apply Ascii.eqb_eq in E. contradiction.
Qed.

Lemma span_len_le p a t :
  head_not p t = true -> span_len p (a ++ t) <= String.length a.
Proof.
  intros Ht. induction a as [|c a IH]; simpl.
  - destruct t as [|c t]; simpl in *; [lia|].
    destruct (p c); simpl in Ht; [discriminate | lia].
  - destruct (p c); lia.
Qed.

(** After dropping at most [length a] characters of [a ++ t], the text left
    starts with a character of [a] or is [t]. *)
Lemma drop_within q a t j :
  all_chars q a = true -> j <= String.length a ->
  (exists c r, drop j (a ++ t) = String c r /\ q c = true) \/ drop j (a ++ t) = t.
Proof.
  revert j. induction a as [|c a IH]; intros j Ha Hj; simpl in *.
  - right. destruct j; [reflexivity | lia].
  - apply andb_prop in Ha as [Hc Ha]. destruct j as [|j].
    + left. exists c, (a ++ t). auto.
    + apply IH; [exact Ha | lia].
Qed.

Lemma street_char_neq c c0 :
  street_char c = true -> street_char c0 = false -> c0 <> c.
Proof. intros H1 H2 E. subst. congruence. Qed.

(** A whole street line before the two-line address shifts it off
    position 0, and [re.match] then fails. *)
Lemma re_match_leading_line lead st ci sa z rest :
  nonempty lead = true -> all_chars street_char lead = true ->
  address_parts st ci sa z = true ->
  re_match address_regex (lead ++ String "010"%char (two_line st ci sa z rest)) = None.
Proof.
  intros Hne Hl Hp. apply address_parts_spec in Hp.
  destruct Hp as (Hst & Hst' & Hci & Hci' & Hsa & Hsa' & Hz & Hz').
  unfold re_match, address_regex. simpl rseq.
  rewrite rmatch_seq. apply rmatch_group_plus_none. intros i Hi.
  rewrite span_len_append in Hi by (assumption || reflexivity).
  rewrite rmatch_seq.
  destruct (drop_within street_char lead (String "010"%char (two_line st ci sa z rest)) i Hl
              (proj2 Hi)) as [(c & r & Hd & Hc) | Hd]; rewrite Hd.
  - apply rmatch_lit_none. apply street_char_neq; [exact Hc | reflexivity].
  - rewrite rmatch_lit, rmatch_seq. apply rmatch_group_plus_none. intros j Hj.
    unfold two_line in Hj |- *.
    assert (Hle : span_len city_char (st ++ String "010"%char (ci ++ ", " ++ sa ++ " " ++ z ++ rest))
                  <= String.length st) by (apply span_len_le; reflexivity).
    rewrite rmatch_seq.
    destruct (drop_within street_char st (String "010"%char (ci ++ ", " ++ sa ++ " " ++ z ++ rest)) j
                Hst' ltac:(lia)) as [(c & r & Hd' & Hc) | Hd']; rewrite Hd'.
    + apply rmatch_lit_none. apply street_char_neq; [exact Hc | reflexivity].
    + apply rmatch_lit_none. discriminate.
Qed.

(** ** The checks never write to the row *)

Lemma check_schema_fields_pure fields r :
  snd (check_schema_fields fields r) = r.
Proof.
  revert r. induction fields as [|f fs IH]; intros r; simpl; [reflexivity|].
  unfold bind.
  assert (Hc : snd (py_contains f r) = r) by (destruct r; reflexivity).
  destruct (py_contains f r) as [[e | b] r1]; simpl in Hc; subst r1; [reflexivity|].
  destruct b; [apply IH | reflexivity].
Qed.

Lemma null_check_fields_pure fields r :
  snd (null_check_fields fields r) = r.
Proof.
  revert r. induction fields as [|f fs IH]; intros r; simpl; [reflexivity|].
  unfold bind.
  assert (Hc : snd (getitem f r) = r)
    by (destruct r; try reflexivity; simpl; destruct (dict_get _ f); reflexivity).
  destruct (getitem f r) as [[e | v] r1]; simpl in Hc; subst r1; [reflexivity|].
  destruct (is_none v); [reflexivity | apply IH].
Qed.

Lemma transform_address_error_pure r e r' :
  transform_address r = (inl e, r') -> r' = r.
Proof.
  destruct r as [| | | | | d];
    try (unfold transform_address, bind; simpl; intros H; inversion H; reflexivity).
  destruct (dict_get d "registered_address") as [v|] eqn:Hget.
  - destruct v as [| | |s| |];
      try (unfold transform_address, bind; simpl getitem; rewrite Hget;
           intros H; inversion H; reflexivity).
    destruct (re_match address_regex s) as [caps|] eqn:Hm.
    + rewrite (transform_address_match d s caps Hget Hm). discriminate.
    + rewrite (transform_address_no_match d s Hget Hm). intros H; inversion H; reflexivity.
  - unfold transform_address, bind; simpl getitem; rewrite Hget.
    intros H; inversion H; reflexivity.
Qed.

(** ** Claims about the row checks *)

Ltac solve_fields_non_null :=
  unfold fields_non_null; intros f Hf; simpl in Hf;
  repeat (destruct Hf as [<- | Hf]; [eexists; split; [reflexivity | discriminate] |]);
  contradiction.

(** C2: a record with the six required fields present and non-null whose
    registered_address starts with the two-line pattern is accepted; the
    result has no registered_address, and street_address, city, state and
    zip are the four captured substrings (zip as the 5-digit text); in the
    [run] loop the row counts as accepted. *)
Theorem process_row_accepts_two_line d st ci sa z rest
  (Hfields : fields_non_null d)
  (Haddr : dict_get d "registered_address" = Some (JStr (two_line st ci sa z rest)))
  (Hparts : address_parts st ci sa z = true) :
  exists d',
    process_row (JObj d) = (inr true, JObj d')
    /\ dict_get d' "registered_address" = None
    /\ dict_get d' "street_address" = Some (JStr st)
    /\ dict_get d' "city" = Some (JStr ci)
    /\ dict_get d' "state" = Some (JStr sa)
    /\ dict_get d' "zip" = Some (JStr z)
    /\ (forall json_loads print_lines st0 line,
          json_loads (py_strip line) = inr (JObj d) ->
          exists st1, run_line json_loads print_lines st0 line = inr st1
                      /\ ok_count st1 = S (ok_count st0)
                      /\ reject_count st1 = reject_count st0
                      /\ row st1 = Some (JObj d')).
Proof.
  pose proof (re_match_two_line st ci sa z rest Hparts) as Hm.
  eexists. rewrite (process_row_after_checks d Hfields).
  rewrite (transform_address_match d _ _ Haddr Hm).
  split; [reflexivity|].
  rewrite !dict_get_del, !dict_get_set. simpl.
  repeat split; try reflexivity.
  intros json_loads print_lines st0 line Hl.
  unfold run_line. rewrite Hl, (process_row_after_checks d Hfields).
  rewrite (transform_address_match d _ _ Haddr Hm).
  eexists. split; [reflexivity|]. simpl. auto.
Qed.

Lemma process_row_accepts_two_line_witness :
  fields_non_null (vehicle (JStr springfield))
  /\ exists d', process_row (JObj (vehicle (JStr springfield))) = (inr true, JObj d')
                /\ dict_get d' "zip" = Some (JStr "62704").
Proof.
  assert (H : fields_non_null (vehicle (JStr springfield))) by solve_fields_non_null.
  split; [exact H|].
  destruct (process_row_accepts_two_line (vehicle (JStr springfield))
              "123 Main St" "Springfield" "IL" "62704" EmptyString H eq_refl eq_refl)
    as (d' & H1 & _ & _ & _ & _ & H6 & _).
  exists d'. split; assumption.
Defined.

(** C3: [check_schema] fails on the first absent required field, in the
    order of VALID_FIELDS, with "Missing required field: <field>", and the
    row is rejected with that error; presence of every key is enough to
    pass, whatever the values (None included). *)
Theorem check_schema_first_missing d pre f post
  (Horder : VALID_FIELDS = (pre ++ f :: post)%list)
  (Hpre : forall g, In g pre -> has_key d g = true)
  (Hf : has_key d f = false) :
  check_schema (JObj d) = (inl (KeyError ("Missing required field: " ++ f)), JObj d)
  /\ process_row (JObj d) = (inl (KeyError ("Missing required field: " ++ f)), JObj d)
  /\ (forall d2, (forall g, In g VALID_FIELDS -> has_key d2 g = true) ->
                 check_schema (JObj d2) = (inr true, JObj d2)).
Proof.
  assert (H : check_schema (JObj d)
              = (inl (KeyError ("Missing required field: " ++ f)), JObj d)).
  { unfold check_schema. rewrite Horder.
    apply check_schema_fields_first_missing; assumption. }
  split; [exact H|]. split; [exact (process_row_schema_error _ _ _ H)|].
  intros d2 H2. apply check_schema_fields_ok. exact H2.
Qed.

Lemma check_schema_first_missing_witness :
  check_schema (JObj (filter (fun kv => negb (String.eqb (fst kv) "year"))
                             (vehicle (JStr springfield))))
  = (inl (KeyError "Missing required field: year"),
     JObj (filter (fun kv => negb (String.eqb (fst kv) "year")) (vehicle (JStr springfield)))).
Proof.
  refine (proj1 (check_schema_first_missing
           (filter (fun kv => negb (String.eqb (fst kv) "year")) (vehicle (JStr springfield)))
           ["license_plate"; "make_model"] "year"
           ["registered_name"; "registered_address"; "registered_date"] _ _ _)).
  - reflexivity.
  - intros g Hg. simpl in Hg. destruct Hg as [<- | [<- | []]]; reflexivity.
  - reflexivity.
Defined.

(** C4: when every required key is present, [null_check] fails on the
    first required field whose value is None, in declared order, with
    "<field> cannot be Null." and the row is rejected with that error; the
    outcome depends only on the required fields; and when the schema check
    fails, its error is the row's error (the null check is not reached). *)
Theorem null_check_first_null d pre f post
  (Horder : VALID_FIELDS = (pre ++ f :: post)%list)
  (Hkeys : forall g, In g VALID_FIELDS -> has_key d g = true)
  (Hpre : forall g, In g pre -> exists v, dict_get d g = Some v /\ v <> JNull)
  (Hf : dict_get d f = Some JNull) :
  null_check (JObj d) = (inl (ValueError (f ++ " cannot be Null.")), JObj d)
  /\ process_row (JObj d) = (inl (ValueError (f ++ " cannot be Null.")), JObj d)
  /\ (forall d2, (forall g, In g VALID_FIELDS -> dict_get d2 g = dict_get d g) ->
                 null_check (JObj d2)
                 = (inl (ValueError (f ++ " cannot be Null.")), JObj d2))
  /\ (forall r e r', check_schema r = (inl e, r') -> process_row r = (inl e, r')).
Proof.
  assert (Hin : forall g, In g pre -> In g VALID_FIELDS)
    by (intros g Hg; rewrite Horder; apply in_or_app; now left).
  assert (Hnull : forall d2, (forall g, In g VALID_FIELDS -> dict_get d2 g = dict_get d g) ->
                  null_check (JObj d2)
                  = (inl (ValueError (f ++ " cannot be Null.")), JObj d2)).
  { intros d2 Hd2. unfold null_check. rewrite Horder.
    apply null_check_fields_first_null.
    - intros g Hg. rewrite (Hd2 g (Hin g Hg)). apply Hpre. exact Hg.
    - rewrite Hd2; [exact Hf|]. rewrite Horder. apply in_or_app. right. now left. }
  split; [apply Hnull; reflexivity|].
  split.
  - unfold process_row, bind at 1, check_schema.
    rewrite (check_schema_fields_ok d VALID_FIELDS Hkeys).
    unfold bind. rewrite (Hnull d (fun _ _ => eq_refl)). reflexivity.
  - split; [exact Hnull | exact process_row_schema_error].
Qed.

Lemma null_check_first_null_witness :
  null_check (JObj (vehicle JNull))
  = (inl (ValueError "registered_address cannot be Null."), JObj (vehicle JNull)).
Proof.
  refine (proj1 (null_check_first_null (vehicle JNull)
           ["license_plate"; "make_model"; "year"; "registered_name"]
           "registered_address" ["registered_date"] _ _ _ _)).
  - reflexivity.
  - intros g Hg. simpl in Hg.
    repeat (destruct Hg as [<- | Hg]; [reflexivity |]). contradiction.
  - intros g Hg. simpl in Hg.
    repeat (destruct Hg as [<- | Hg]; [eexists; split; [reflexivity | discriminate] |]).
    contradiction.
  - reflexivity.
Defined.

(** C5: when the registered_address string does not match the pattern,
    [transform_address] raises with "Unknown address format: " followed by
    the address with its outer whitespace removed and each line break
    replaced by ", ". *)
Theorem transform_address_unknown_format d s
  (Haddr : dict_get d "registered_address" = Some (JStr s))
  (Hnomatch : re_match address_regex s = None) :
  exists lead core trail,
    s = lead ++ core ++ trail
    /\ all_chars py_isspace lead = true
    /\ all_chars py_isspace trail = true
    /\ trimmed core = true
    /\ fst (transform_address (JObj d))
       = inl (ValueError ("Unknown address format: " ++ replace_nl core)).
Proof.
  destruct (py_strip_split s) as (lead & trail & Hs & Hl & Ht & Htr).
  exists lead, (py_strip s), trail.
  rewrite (transform_address_no_match d s Haddr Hnomatch). auto.
Qed.

Lemma transform_address_unknown_format_witness :
  re_match address_regex "123 Main St, Springfield, IL 62704" = None
  /\ exists lead core trail,
       "123 Main St, Springfield, IL 62704" = lead ++ core ++ trail
       /\ all_chars py_isspace lead = true
       /\ all_chars py_isspace trail = true
       /\ trimmed core = true
       /\ fst (transform_address (JObj (vehicle (JStr "123 Main St, Springfield, IL 62704"))))
          = inl (ValueError ("Unknown address format: " ++ replace_nl core)).
Proof.
  assert (Hm : re_match address_regex "123 Main St, Springfield, IL 62704" = None)
    by (vm_compute; reflexivity).
  split; [exact Hm|].
  exact (transform_address_unknown_format (vehicle (JStr "123 Main St, Springfield, IL 62704"))
           _ eq_refl Hm).
Defined.

(** C6: [re.match] is anchored at the start but not at the end: an address
    that starts with a full two-line match is transformed from the match
    alone, whatever trails it; an address whose first character cannot
    start the street, or that has an extra line before the two-line
    address, has no match at position 0 and is refused, as is every
    address without a match at position 0. *)
Theorem transform_address_anchored_at_start d st ci sa z rest
  (Haddr : dict_get d "registered_address" = Some (JStr (two_line st ci sa z rest)))
  (Hparts : address_parts st ci sa z = true) :
  transform_address (JObj d)
  = (inr true,
     JObj (dict_del
             (dict_set (dict_set (dict_set (dict_set d
                "street_address" (JStr st)) "city" (JStr ci))
                "state" (JStr sa)) "zip" (JStr z))
             "registered_address"))
  /\ (forall c s, street_char c = false ->
                  re_match address_regex (String c s) = None)
  /\ (forall lead, nonempty lead = true -> all_chars street_char lead = true ->
                   re_match address_regex
                     (lead ++ String "010"%char (two_line st ci sa z rest)) = None)
  /\ (forall d2 s, dict_get d2 "registered_address" = Some (JStr s) ->
                   re_match address_regex s = None ->
                   exists e, transform_address (JObj d2) = (inl e, JObj d2)).
Proof.
  split; [|split; [|split]].
  - rewrite (transform_address_match d _ _ Haddr (re_match_two_line st ci sa z rest Hparts)).
    reflexivity.
  - exact re_match_bad_first.
  - intros lead Hne Hl. exact (re_match_leading_line lead st ci sa z rest Hne Hl Hparts).
  - intros d2 s Hget Hm. eexists. exact (transform_address_no_match d2 s Hget Hm).
Qed.

Lemma transform_address_anchored_at_start_witness :
  address_parts "123 Main St" "Springfield" "IL" "62704" = true
  /\ fst (transform_address
            (JObj (vehicle (JStr (two_line "123 Main St" "Springfield" "IL" "62704" "6 extra")))))
     = inr true.
Proof.
  split; [reflexivity|].
  rewrite (proj1 (transform_address_anchored_at_start
                    (vehicle (JStr (two_line "123 Main St" "Springfield" "IL" "62704" "6 extra")))
                    "123 Main St" "Springfield" "IL" "62704" "6 extra" eq_refl eq_refl)).
  reflexivity.
Defined.

(** C7: a failing [transform_address] leaves the row exactly as it was
    (the four fields are not written, registered_address is kept), and a
    row rejected by the checks of [run] keeps its decoded shape. *)
Theorem transform_address_failure_keeps_row r e r'
  (Hfail : transform_address r = (inl e, r')) :
  r' = r
  /\ (forall e2 r2, process_row r = (inl e2, r2) -> r2 = r).
Proof.
  split; [exact (transform_address_error_pure r e r' Hfail)|].
  intros e2 r2. unfold process_row, bind.
  pose proof (check_schema_fields_pure VALID_FIELDS r) as H1.
  unfold check_schema. destruct (check_schema_fields VALID_FIELDS r) as [[e1 | b1] r1].
  - simpl in H1. intros H; inversion H; subst; reflexivity.
  - simpl in H1. subst r1. unfold null_check.
    pose proof (null_check_fields_pure VALID_FIELDS r) as H2.
    destruct (null_check_fields VALID_FIELDS r) as [[e3 | b3] r3];
      simpl in H2; subst r3.
    + intros H; inversion H; reflexivity.
    + apply transform_address_error_pure.
Qed.

Lemma transform_address_failure_keeps_row_witness :
  let r := JObj (vehicle (JStr "123 Main St, Springfield, IL 62704")) in
  transform_address r
  = (inl (ValueError "Unknown address format: 123 Main St, Springfield, IL 62704"), r)
  /\ r = r.
Proof.
  intros r. assert (H : transform_address r
    = (inl (ValueError "Unknown address format: 123 Main St, Springfield, IL 62704"), r))
    by (vm_compute; reflexivity).
  split; [exact H|].
  exact (proj1 (transform_address_failure_keeps_row r _ r H)).
Defined.

(** C8: when [run] returns, accepted plus rejected equals the number of
    rows read, which is the number of lines; each line adds one to exactly
    one of the two counters; an empty file gives 0 read, 0 accepted,
    0 rejected. *)
Theorem run_counters json_loads print_lines lines out n_read n_ok n_rej
  (Hrun : run json_loads print_lines (Some lines) = Finished out n_read n_ok n_rej) :
  n_ok + n_rej = n_read
  /\ n_read = length lines
  /\ (forall st l st', run_line json_loads print_lines st l = inr st' ->
        (ok_count st' = S (ok_count st) /\ reject_count st' = reject_count st) \/
        (ok_count st' = ok_count st /\ reject_count st' = S (reject_count st)))
  /\ run json_loads print_lines (Some []) = Finished
       [LineText "Read 0 rows"; LineText "OK rows: 0000, Rejected rows: 0000"] 0 0 0.
Proof.
  unfold run in Hrun.
  destruct (run_lines json_loads print_lines init_state lines) as [[e o] | st] eqn:E;
    [discriminate|].
  inversion Hrun; subst.
  destruct (run_lines_counts json_loads print_lines lines init_state st E) as [H1 H2].
  simpl in H1, H2.
  split; [lia|]. split; [lia|]. split; [|reflexivity].
  intros st0 l st' H. apply (run_line_step json_loads print_lines st0 l st' H).
Qed.

Lemma run_counters_witness :
  exists out, run sample_loads false (Some [scenario1_line; "not json"]) = Finished out 2 1 1
              /\ 1 + 1 = 2.
Proof.
  set (o := run sample_loads false (Some [scenario1_line; "not json"])).
  assert (E : o = Finished (match o with Finished out _ _ _ => out | Raised _ out => out end)
                           2 1 1) by (vm_compute; reflexivity).
  eexists. split; [exact E|].
  exact (proj1 (run_counters _ _ _ _ _ _ _ E)).
Defined.

(** C10: when the six required fields are present and non-null but
    registered_address is not a string, [re.match] raises a TypeError,
    not the address-format ValueError; the row is rejected with it, and
    the [run] loop counts the row as rejected and goes on. *)
Theorem transform_address_non_string d v
  (Hfields : fields_non_null d)
  (Haddr : dict_get d "registered_address" = Some v)
  (Hnotstr : forall s, v <> JStr s) :
  transform_address (JObj d)
  = (inl (TypeError ("expected string or bytes-like object, got '" ++ type_name v ++ "'")),
     JObj d)
  /\ process_row (JObj d)
     = (inl (TypeError ("expected string or bytes-like object, got '" ++ type_name v ++ "'")),
        JObj d)
  /\ (forall json_loads print_lines st0 line,
        json_loads (py_strip line) = inr (JObj d) ->
        exists st1, run_line json_loads print_lines st0 line = inr st1
                    /\ reject_count st1 = S (reject_count st0)
                    /\ ok_count st1 = ok_count st0).
Proof.
  assert (H : transform_address (JObj d)
    = (inl (TypeError ("expected string or bytes-like object, got '" ++ type_name v ++ "'")),
       JObj d)).
  { unfold transform_address, bind. simpl getitem. rewrite Haddr.
    destruct v; try reflexivity. exfalso. exact (Hnotstr s eq_refl). }
  split; [exact H|].
  rewrite (process_row_after_checks d Hfields). split; [exact H|].
  intros json_loads print_lines st0 line Hl.
  unfold run_line. rewrite Hl, (process_row_after_checks d Hfields), H.
  eexists. split; [reflexivity|]. simpl. auto.
Qed.

Lemma transform_address_non_string_witness :
  fields_non_null (vehicle (JNum 5))
  /\ fst (process_row (JObj (vehicle (JNum 5))))
     = inl (TypeError "expected string or bytes-like object, got 'int'").
Proof.
  assert (H : fields_non_null (vehicle (JNum 5))) by solve_fields_non_null.
  split; [exact H|].
  rewrite (proj1 (proj2 (transform_address_non_string (vehicle (JNum 5)) (JNum 5)
                          H eq_refl (fun s E => ltac:(discriminate E))))).
  reflexivity.
Defined.

(** ** Behaviour of [run] when a line is not JSON *)

(** C1 (code_bug): when the first line of the file is not JSON, the
    [except] handler reads [row] before it was ever bound; the resulting
    UnboundLocalError escapes the handler and ends [run], with nothing
    printed. *)
Theorem run_first_line_not_json json_loads print_lines l rest e
  (Hdecode : json_loads (py_strip l) = inl e) :
  run json_loads print_lines (Some (l :: rest))
  = Raised (UnboundLocalError unbound_row_msg) [].
Proof. unfold run. simpl. unfold run_line. rewrite Hdecode. reflexivity. Qed.

Lemma run_first_line_not_json_witness :
  sample_loads (py_strip "not json")
  = inl (JSONDecodeError "Expecting value: line 1 column 1 (char 0)")
  /\ run sample_loads false (Some ["not json"; scenario1_line])
     = Raised (UnboundLocalError unbound_row_msg) [].
Proof.
  assert (H : sample_loads (py_strip "not json")
              = inl (JSONDecodeError "Expecting value: line 1 column 1 (char 0)"))
    by (vm_compute; reflexivity).
  split; [exact H|].
  exact (run_first_line_not_json sample_loads false "not json" [scenario1_line] _ H).
Defined.

(** A line that is not JSON after a decoded one is reported with the
    previous line's row, as it was left by that line. *)
Lemma run_decode_error_reports_previous_row :
  match run sample_loads false (Some [scenario1_line; "not json"]) with
  | Finished out _ _ _ =>
      In (LineError 2 "Expecting value: line 1 column 1 (char 0)"
                    (snd (process_row (JObj (vehicle (JStr springfield)))))) out
  | Raised _ _ => False
  end.
Proof. vm_compute. left. reflexivity. Qed.

(** C9 (code_bug): the file that cannot be opened ends [run] with the
    error and no summary, but so does an openable file whose first line
    is not JSON: no "Read <N> rows" and "OK rows: ..." lines are printed. *)
Theorem run_no_summary_first_line_not_json :
  run sample_loads false None = Raised (FileNotFoundError "No such file or directory") []
  /\ run sample_loads false (Some ["not json"; scenario1_line])
     = Raised (UnboundLocalError unbound_row_msg) [].
Proof. split; vm_compute; reflexivity. Qed.

(** A run that returns ends with the two summary lines. *)
Lemma run_finished_summary json_loads print_lines lines out n_read n_ok n_rej :
  run json_loads print_lines (Some lines) = Finished out n_read n_ok n_rej ->
  exists pre, out = (pre ++
    [LineText ("Read " ++ show_nat n_read ++ " rows");
     LineText ("OK rows: " ++ pad4 n_ok ++ ", Rejected rows: " ++ pad4 n_rej)])%list.
Proof.
  unfold run. destruct (run_lines json_loads print_lines init_state lines) as [[e o] | st];
    [discriminate|].
  intros H. inversion H; subst. exists (output st). reflexivity.
Qed.

(** ** What a match of the address pattern implies *)

Lemma try_down_some {A} n (f : nat -> option A) x :
  try_down n f = Some x -> exists i, 1 <= i <= n /\ f i = Some x.
Proof.
  induction n as [|n IH]; simpl; [discriminate|].
  destruct (f (S n)) eqn:E.
  - intros H; inversion H; subst. exists (S n). split; [lia | exact E].
  - intros H. destruct (IH H) as [i [Hi Hf]]. exists i. split; [lia | exact Hf].
Qed.

Lemma substring_drop s i : s = substring 0 i s ++ drop i s.
Proof.
  revert i. induction s as [|c s IH]; intros [|i]; simpl; auto.
  f_equal. apply IH.
Qed.

Lemma consumed_drop s i : consumed s (drop i s) = substring 0 i s.
Proof.
  rewrite (substring_drop s i) at 1. apply consumed_append.
Qed.

Lemma span_prefix p s i :
  i <= span_len p s ->
  all_chars p (substring 0 i s) = true /\ String.length (substring 0 i s) = i.
Proof.
  revert i. induction s as [|c s IH]; intros i Hi; simpl in *.
  - assert (i = 0) by lia. subst. auto.
  - destruct i as [|i]; simpl; [auto|].
    destruct (p c) eqn:Ec; [|lia].
    destruct (IH i ltac:(lia)) as [H1 H2]. rewrite H1, H2. auto.
Qed.

Lemma rmatch_group_plus_inv {A} nm p s caps (k : string -> captures -> option A) x :
  rmatch (RGroup nm (RPlus p)) s caps k = Some x ->
  exists a t, s = a ++ t /\ nonempty a = true /\ all_chars p a = true
              /\ k t (caps ++ [(nm, a)])%list = Some x.
Proof.
  simpl. intros H. apply try_down_some in H as [i [Hi H]].
  rewrite consumed_drop in H.
  destruct (span_prefix p s i (proj2 Hi)) as [Ha Hl].
  exists (substring 0 i s), (drop i s).
  split; [apply substring_drop|]. split; [|split; assumption].
  destruct (substring 0 i s); simpl in Hl; [lia | reflexivity].
Qed.

Lemma take_rep_inv n p s t :
  take_rep n p s = Some t ->
  exists a, s = a ++ t /\ String.length a = n /\ all_chars p a = true.
Proof.
  revert s. induction n as [|n IH]; intros s H; simpl in H.
  - inversion H; subst. exists EmptyString. auto.
  - destruct s as [|c s]; [discriminate|].
    destruct (p c) eqn:Ec; [|discriminate].
    destruct (IH s H) as (a & -> & Hl & Ha).
    exists (String c a). simpl. rewrite Ec, Ha, Hl. auto.
Qed.

Lemma rmatch_group_rep_inv {A} nm n p s caps (k : string -> captures -> option A) x :
  rmatch (RGroup nm (RRep n p)) s caps k = Some x ->
  exists a t, s = a ++ t /\ String.length a = n /\ all_chars p a = true
              /\ k t (caps ++ [(nm, a)])%list = Some x.
Proof.
  simpl. destruct (take_rep n p s) as [t|] eqn:E; [|discriminate].
  intros H. destruct (take_rep_inv n p s t E) as (a & -> & Hl & Ha).
  rewrite consumed_append in H. exists a, t. auto.
Qed.

Lemma rmatch_lit_inv {A} c s caps (k : string -> captures -> option A) x :
  rmatch (RLit c) s caps k = Some x -> exists t, s = String c t /\ k t caps = Some x.
Proof.
  destruct s as [|c' t]; simpl; [discriminate|].
  destruct (Ascii.eqb c c') eqn:E; [|discriminate].
  apply Ascii.eqb_eq in E. subst. intros H. exists t. auto.
Qed.

Lemma re_match_sound s caps :
  re_match address_regex s = Some caps ->
  exists st ci sa z rest,
    s = two_line st ci sa z rest /\ address_parts st ci sa z = true
    /\ caps = [("street_address", st); ("city", ci); ("state", sa); ("zip", z)].
Proof.
  unfold re_match, address_regex. simpl rseq. intros H.
  rewrite rmatch_seq in H.
  apply rmatch_group_plus_inv in H as (st & t1 & -> & Hst & Hst' & H).
  rewrite rmatch_seq in H. apply rmatch_lit_inv in H as (t2 & -> & H).
  rewrite rmatch_seq in H.
  apply rmatch_group_plus_inv in H as (ci & t3 & -> & Hci & Hci' & H).
  rewrite rmatch_seq in H. apply rmatch_lit_inv in H as (t4 & -> & H).
  rewrite rmatch_seq in H. apply rmatch_lit_inv in H as (t5 & -> & H).
  rewrite rmatch_seq in H.
  apply rmatch_group_rep_inv in H as (sa & t6 & -> & Hsa & Hsa' & H).
  rewrite rmatch_seq in H. apply rmatch_lit_inv in H as (t7 & -> & H).
  apply rmatch_group_rep_inv in H as (z & rest & -> & Hz & Hz' & H).
  inversion H; subst.
  exists st, ci, sa, z, rest. split; [reflexivity|]. split; [|reflexivity].
  unfold address_parts. rewrite Hst, Hst', Hci, Hci', Hsa, Hsa', Hz, Hz'. reflexivity.
Qed.

(** ** What a successful [transform_address] did *)

Lemma transform_address_success_inv r b r' :
  transform_address r = (inr b, r') ->
  exists d s caps,
    r = JObj d /\ dict_get d "registered_address" = Some (JStr s)
    /\ re_match address_regex s = Some caps
    /\ r' = JObj (dict_del
             (dict_set (dict_set (dict_set (dict_set d
                "street_address" (JStr (group caps "street_address")))
                "city" (JStr (group caps "city")))
                "state" (JStr (group caps "state")))
                "zip" (JStr (group caps "zip")))
             "registered_address").
Proof.
  destruct r as [| | | | | d];
    try (unfold transform_address, bind; simpl; intros H; inversion H; fail).
  destruct (dict_get d "registered_address") as [v|] eqn:Hget.
  - destruct v as [| | |s| |];
      try (unfold transform_address, bind; simpl getitem; rewrite Hget;
           intros H; inversion H; fail).
    destruct (re_match address_regex s) as [caps|] eqn:Hm.
    + rewrite (transform_address_match d s caps Hget Hm). intros H; inversion H; subst.
      exists d, s, caps. auto.
    + rewrite (transform_address_no_match d s Hget Hm). discriminate.
  - unfold transform_address, bind; simpl getitem; rewrite Hget. discriminate.
Qed.

Lemma process_row_success_inv r b r' :
  process_row r = (inr b, r') -> transform_address r = (inr b, r').
Proof.
  unfold process_row, bind.
  pose proof (check_schema_fields_pure VALID_FIELDS r) as H1.
  unfold check_schema. destruct (check_schema_fields VALID_FIELDS r) as [[e1 | b1] r1];
    [discriminate|].
  simpl in H1. subst r1. unfold null_check.
  pose proof (null_check_fields_pure VALID_FIELDS r) as H2.
  destruct (null_check_fields VALID_FIELDS r) as [[e3 | b3] r3]; [discriminate|].
  simpl in H2. subst r3. auto.
Qed.

Lemma dict_set_new d k v : has_key d k = false -> dict_set d k v = (d ++ [(k, v)])%list.
Proof. unfold dict_set. intros H. now rewrite H. Qed.

Lemma has_key_snoc d k v k' :
  has_key (d ++ [(k, v)])%list k' = has_key d k' || String.eqb k' k.
Proof.
  unfold has_key. rewrite dict_get_app. destruct (dict_get d k'); [reflexivity|].
  simpl. destruct (String.eqb k' k); reflexivity.
Qed.

Lemma transform_address_other_keys d b d' :
  transform_address (JObj d) = (inr b, JObj d') ->
  forall k, ~ In k ["registered_address"; "street_address"; "city"; "state"; "zip"] ->
  dict_get d' k = dict_get d k.
Proof.
  intros H k Hk. apply transform_address_success_inv in H as (d0 & s & caps & E & _ & _ & E').
  inversion E; subst d0. inversion E'; subst d'.
  assert (Hne : forall k', In k' ["registered_address"; "street_address"; "city"; "state"; "zip"] ->
                String.eqb k k' = false)
    by (intros k' Hk'; apply String.eqb_neq; intros ->; contradiction).
  rewrite dict_get_del, !dict_get_set.
  rewrite !Hne by (simpl; tauto). reflexivity.
Qed.

Lemma check_schema_fields_success_keys fields d b r :
  check_schema_fields fields (JObj d) = (inr b, r) -> forall f, In f fields -> has_key d f = true.
Proof.
  induction fields as [|f fs IH]; intros H g Hg; [contradiction|].
  simpl in H. unfold bind in H. simpl in H.
  destruct (has_key d f) eqn:Hf; [|discriminate].
  destruct Hg as [<- | Hg]; [exact Hf | exact (IH H g Hg)].
Qed.

Lemma check_schema_fields_ok_gen fields r :
  (forall f, In f fields -> fst (py_contains f r) = inr true) ->
  check_schema_fields fields r = (inr true, r).
Proof.
  induction fields as [|f fs IH]; intros H; simpl; [reflexivity|].
  unfold bind.
  assert (Hs : snd (py_contains f r) = r) by (destruct r; reflexivity).
  pose proof (H f (or_introl eq_refl)) as Hf.
  destruct (py_contains f r) as [x r1]; simpl in Hs, Hf; subst.
  apply IH. intros g Hg. apply H. now right.
Qed.

Lemma null_check_fields_first_missing d pre f post :
  (forall g, In g pre -> exists v, dict_get d g = Some v /\ v <> JNull) ->
  dict_get d f = None ->
  null_check_fields (pre ++ f :: post) (JObj d) = (inl (KeyError f), JObj d).
Proof.
  induction pre as [|g pre IH]; intros Hpre Hf; simpl; unfold bind; simpl.
  - rewrite Hf. reflexivity.
  - destruct (Hpre g (or_introl eq_refl)) as [v [Hv Hnn]]. rewrite Hv.
    destruct v; try (apply IH; [intros g' Hg'; apply Hpre; now right | exact Hf]).
    contradiction.
Qed.

(** ** Further properties of the row checks *)

(** [re.match] of the address pattern succeeds exactly on the strings
    that start with a two-line address, and its groups are that address's
    four components. *)
Theorem re_match_address_iff s caps :
  re_match address_regex s = Some caps <->
  exists st ci sa z rest,
    s = two_line st ci sa z rest /\ address_parts st ci sa z = true
    /\ caps = [("street_address", st); ("city", ci); ("state", sa); ("zip", z)].
Proof.
  split; [apply re_match_sound|].
  intros (st & ci & sa & z & rest & -> & Hp & ->). apply re_match_two_line. exact Hp.
Qed.

Lemma re_match_address_iff_witness :
  re_match address_regex springfield
  = Some [("street_address", "123 Main St"); ("city", "Springfield");
          ("state", "IL"); ("zip", "62704")].
Proof.
  apply (proj2 (re_match_address_iff springfield _)).
  exists "123 Main St", "Springfield", "IL", "62704", EmptyString.
  split; [reflexivity | split; reflexivity].
Defined.

(** An accepted row is a dict without registered_address whose street and
    city are non-empty runs of their character classes, whose state is two
    capitals and whose zip is five digits. *)
Theorem accepted_row_shape r b r'
  (Hok : process_row r = (inr b, r')) :
  exists d d' st ci sa z,
    r = JObj d /\ r' = JObj d' /\ address_parts st ci sa z = true
    /\ dict_get d' "registered_address" = None
    /\ dict_get d' "street_address" = Some (JStr st)
    /\ dict_get d' "city" = Some (JStr ci)
    /\ dict_get d' "state" = Some (JStr sa)
    /\ dict_get d' "zip" = Some (JStr z).
Proof.
  apply process_row_success_inv, transform_address_success_inv in Hok
    as (d & s & caps & -> & Hget & Hm & ->).
  destruct (re_match_sound s caps Hm) as (st & ci & sa & z & rest & _ & Hp & ->).
  eexists d, _, st, ci, sa, z. split; [reflexivity|]. split; [reflexivity|].
  split; [exact Hp|].
  rewrite !dict_get_del, !dict_get_set. simpl. repeat split; reflexivity.
Qed.

Lemma accepted_row_shape_witness :
  exists d d' st ci sa z,
    JObj (vehicle (JStr springfield)) = JObj d /\ snd (process_row (JObj (vehicle (JStr springfield)))) = JObj d'
    /\ address_parts st ci sa z = true
    /\ dict_get d' "registered_address" = None
    /\ dict_get d' "street_address" = Some (JStr st)
    /\ dict_get d' "city" = Some (JStr ci)
    /\ dict_get d' "state" = Some (JStr sa)
    /\ dict_get d' "zip" = Some (JStr z).
Proof.
  assert (H : process_row (JObj (vehicle (JStr springfield)))
              = (inr true, snd (process_row (JObj (vehicle (JStr springfield))))))
    by (vm_compute; reflexivity).
  exact (accepted_row_shape _ _ _ H).
Defined.

(** When the row has none of the four new keys, the transformed dict is the
    original one without registered_address, followed by street_address,
    city, state and zip in that order. *)
Theorem transform_address_appends_fields d b d'
  (Hok : transform_address (JObj d) = (inr b, JObj d'))
  (Hfresh : forall k, In k ["street_address"; "city"; "state"; "zip"] -> has_key d k = false) :
  exists st ci sa z,
    d' = (dict_del d "registered_address"
          ++ [("street_address", JStr st); ("city", JStr ci);
              ("state", JStr sa); ("zip", JStr z)])%list.
Proof.
  apply transform_address_success_inv in Hok as (d0 & s & caps & E & _ & _ & E').
  inversion E; subst d0. inversion E'; subst d'.
  assert (H1 : has_key d "street_address" = false) by (apply Hfresh; simpl; tauto).
  assert (H2 : has_key d "city" = false) by (apply Hfresh; simpl; tauto).
  assert (H3 : has_key d "state" = false) by (apply Hfresh; simpl; tauto).
  assert (H4 : has_key d "zip" = false) by (apply Hfresh; simpl; tauto).
  rewrite (dict_set_new d _ _ H1).
  rewrite (dict_set_new _ "city") by (rewrite has_key_snoc, H2; reflexivity).
  rewrite (dict_set_new _ "state") by (rewrite !has_key_snoc, H3; reflexivity).
  rewrite (dict_set_new _ "zip") by (rewrite !has_key_snoc, H4; reflexivity).
  do 4 eexists. unfold dict_del. rewrite !filter_app. simpl.
  rewrite <- !app_assoc. reflexivity.
Qed.

Lemma transform_address_appends_fields_witness :
  exists d',
    transform_address (JObj (vehicle (JStr springfield))) = (inr true, JObj d')
    /\ exists st ci sa z,
         d' = (dict_del (vehicle (JStr springfield)) "registered_address"
               ++ [("street_address", JStr st); ("city", JStr ci);
                   ("state", JStr sa); ("zip", JStr z)])%list.
Proof.
  set (d' := match snd (transform_address (JObj (vehicle (JStr springfield)))) with
             | JObj d' => d' | _ => [] end).
  assert (H : transform_address (JObj (vehicle (JStr springfield))) = (inr true, JObj d'))
    by (vm_compute; reflexivity).
  assert (Hfresh : forall k, In k ["street_address"; "city"; "state"; "zip"] ->
                            has_key (vehicle (JStr springfield)) k = false).
  { intros k Hk. simpl in Hk.
    repeat (destruct Hk as [<- | Hk]; [reflexivity |]). contradiction. }
  exists d'. split; [exact H|].
  exact (transform_address_appends_fields _ _ _ H Hfresh).
Defined.

(** A successful [transform_address] leaves every key other than
    registered_address and the four address keys as it was. *)
Theorem transform_address_keeps_other_fields d b d'
  (Hok : transform_address (JObj d) = (inr b, JObj d')) :
  forall k, ~ In k ["registered_address"; "street_address"; "city"; "state"; "zip"] ->
  dict_get d' k = dict_get d k.
Proof. exact (transform_address_other_keys d b d' Hok). Qed.

Lemma transform_address_keeps_other_fields_witness :
  dict_get (match snd (transform_address (JObj (vehicle (JStr springfield)))) with
            | JObj d' => d' | _ => [] end) "year"
  = dict_get (vehicle (JStr springfield)) "year".
Proof.
  assert (H : transform_address (JObj (vehicle (JStr springfield)))
    = (inr true, JObj (match snd (transform_address (JObj (vehicle (JStr springfield)))) with
                       | JObj d' => d' | _ => [] end)))
    by (vm_compute; reflexivity).
  apply (transform_address_keeps_other_fields _ _ _ H).
  simpl. intuition discriminate.
Defined.

(** An accepted row cannot pass the pipeline again: [check_schema] now
    reports registered_address as missing, and [transform_address] alone
    raises KeyError on it. *)
Theorem accepted_row_not_reaccepted r b r'
  (Hok : process_row r = (inr b, r')) :
  process_row r' = (inl (KeyError "Missing required field: registered_address"), r')
  /\ transform_address r' = (inl (KeyError "registered_address"), r').
Proof.
  assert (Ht := process_row_success_inv r b r' Hok).
  pose proof Ht as Ht'.
  apply transform_address_success_inv in Ht as (d & s & caps & -> & Hget & Hm & ->).
  set (d' := dict_del _ "registered_address").
  assert (Hreg : dict_get d' "registered_address" = None)
    by (unfold d'; rewrite dict_get_del; reflexivity).
  split.
  - assert (Hkeys : forall f, In f VALID_FIELDS -> has_key d f = true).
    { unfold process_row, bind, check_schema in Hok.
      destruct (check_schema_fields VALID_FIELDS (JObj d)) as [[e1 | b1] r1] eqn:E;
        [discriminate|].
      exact (check_schema_fields_success_keys VALID_FIELDS d b1 r1 E). }
    apply process_row_schema_error. unfold check_schema.
    apply (check_schema_fields_first_missing d'
             ["license_plate"; "make_model"; "year"; "registered_name"]
             "registered_address" ["registered_date"]).
    + intros g Hg. unfold has_key.
      rewrite (transform_address_other_keys d b d' Ht' g).
      * apply Hkeys. simpl in Hg |- *. tauto.
      * simpl in Hg |- *. intuition (subst; discriminate).
    + unfold has_key. now rewrite Hreg.
  - unfold transform_address, bind. simpl getitem. rewrite Hreg. reflexivity.
Qed.

Lemma accepted_row_not_reaccepted_witness :
  let r' := snd (process_row (JObj (vehicle (JStr springfield)))) in
  process_row (JObj (vehicle (JStr springfield))) = (inr true, r')
  /\ process_row r' = (inl (KeyError "Missing required field: registered_address"), r').
Proof.
  intros r'. assert (H : process_row (JObj (vehicle (JStr springfield))) = (inr true, r'))
    by (vm_compute; reflexivity).
  split; [exact H|]. exact (proj1 (accepted_row_not_reaccepted _ _ _ H)).
Defined.

(** A decoded JSON value that is not an object (null, a boolean, a
    number, a string or an array) is never accepted. *)
Theorem process_row_rejects_non_dict v
  (Hnotdict : forall d, v <> JObj d) :
  exists e, fst (process_row v) = inl e /\ snd (process_row v) = v.
Proof.
  destruct (process_row v) as [[e | b] r'] eqn:E.
  - exists e. split; [reflexivity|].
    pose proof (check_schema_fields_pure VALID_FIELDS v) as H1.
    pose proof (null_check_fields_pure VALID_FIELDS v) as H2.
    unfold process_row, bind, check_schema, null_check in E.
    destruct (check_schema_fields VALID_FIELDS v) as [[e1 | b1] r1];
      simpl in H1; subst r1; [inversion E; reflexivity|].
    destruct (null_check_fields VALID_FIELDS v) as [[e3 | b3] r3];
      simpl in H2; subst r3; [inversion E; reflexivity|].
    exact (transform_address_error_pure v e r' E).
  - apply process_row_success_inv, transform_address_success_inv in E
      as (d & _ & _ & Hv & _).
    exfalso. exact (Hnotdict d Hv).
Qed.

Lemma process_row_rejects_non_dict_witness :
  exists e, fst (process_row (JNum 7)) = inl e /\ snd (process_row (JNum 7)) = JNum 7.
Proof. apply process_row_rejects_non_dict. discriminate. Defined.

(** [check_schema] only tests membership with [in]: a JSON array holding
    the six field names passes it, and the row is then rejected by the
    TypeError of [null_check] indexing a list with a string. *)
Theorem check_schema_accepts_name_list l
  (Hnames : forall f, In f VALID_FIELDS -> In (JStr f) l) :
  check_schema (JArr l) = (inr true, JArr l)
  /\ process_row (JArr l)
     = (inl (TypeError "list indices must be integers or slices, not str"), JArr l).
Proof.
  assert (H : check_schema (JArr l) = (inr true, JArr l)).
  { apply check_schema_fields_ok_gen. intros f Hf. simpl. f_equal.
    apply existsb_exists. exists (JStr f). split; [exact (Hnames f Hf)|].
    apply String.eqb_refl. }
  split; [exact H|].
  unfold process_row, bind at 1. rewrite H. reflexivity.
Qed.

Lemma check_schema_accepts_name_list_witness :
  check_schema (JArr (map JStr VALID_FIELDS)) = (inr true, JArr (map JStr VALID_FIELDS)).
Proof.
  apply check_schema_accepts_name_list. intros f Hf. apply in_map. exact Hf.
Defined.

(** On a JSON string [in] is a substring test: a string containing the six
    field names passes [check_schema], and the row is then rejected by the
    TypeError of [null_check] indexing a string with a string. *)
Theorem check_schema_accepts_name_string s
  (Hnames : forall f, In f VALID_FIELDS -> str_contains f s = true) :
  check_schema (JStr s) = (inr true, JStr s)
  /\ process_row (JStr s)
     = (inl (TypeError "string indices must be integers, not 'str'"), JStr s).
Proof.
  assert (H : check_schema (JStr s) = (inr true, JStr s)).
  { apply check_schema_fields_ok_gen. intros f Hf. simpl. now rewrite (Hnames f Hf). }
  split; [exact H|].
  unfold process_row, bind at 1. rewrite H. reflexivity.
Qed.

Lemma check_schema_accepts_name_string_witness :
  check_schema (JStr "license_plate make_model year registered_name registered_address registered_date")
  = (inr true, JStr "license_plate make_model year registered_name registered_address registered_date").
Proof.
  apply check_schema_accepts_name_string.
  intros f Hf. simpl in Hf.
  repeat (destruct Hf as [<- | Hf]; [vm_compute; reflexivity |]). contradiction.
Defined.

(** [null_check] used on its own reads every required field with
    [row[field]]: on a dict without one of them it raises a KeyError whose
    argument is the bare field name (the first absent field, when every
    earlier field is present and not None). *)
Theorem null_check_missing_key d pre f post
  (Horder : VALID_FIELDS = (pre ++ f :: post)%list)
  (Hpre : forall g, In g pre -> exists v, dict_get d g = Some v /\ v <> JNull)
  (Hf : dict_get d f = None) :
  null_check (JObj d) = (inl (KeyError f), JObj d).
Proof.
  unfold null_check. rewrite Horder. apply null_check_fields_first_missing; assumption.
Qed.

Lemma null_check_missing_key_witness :
  null_check (JObj [("license_plate", JStr "ABC123")])
  = (inl (KeyError "make_model"), JObj [("license_plate", JStr "ABC123")]).
Proof.
  apply (null_check_missing_key _ ["license_plate"] "make_model"
           ["year"; "registered_name"; "registered_address"; "registered_date"]).
  - reflexivity.
  - intros g [<- | []]. eexists. split; [reflexivity | discriminate].
  - reflexivity.
Defined.

(** [check_schema] and [null_check] never write to the row, whatever it
    is and whether they pass or raise. *)
Theorem checks_never_modify_row r :
  snd (check_schema r) = r /\ snd (null_check r) = r.
Proof.
  split; [apply check_schema_fields_pure | apply null_check_fields_pure].
Qed.

(** ** Further properties of [run] *)

Section RunMore.

Variable json_loads : string -> exn + jvalue.



Lemma run_line_counters pl1 pl2 st1 st2 l :
  counters st1 = counters st2 ->
  match run_line json_loads pl1 st1 l, run_line json_loads pl2 st2 l with
  | inr a, inr b => counters a = counters b
  | inl (e1, _), inl (e2, _) => e1 = e2
  | _, _ => False
  end.
Proof.
  destruct st1 as [r1 n1 a1 k1 o1], st2 as [r2 n2 a2 k2 o2].
  unfold counters; simpl. intros H. inversion H; subst.
  unfold run_line, on_error; simpl.
  destruct (json_loads (py_strip l)) as [err | w].
  - destruct r2; reflexivity.
  - destruct (process_row w) as [[err | b] w']; reflexivity.
Qed.

Lemma run_lines_counters pl1 pl2 lines st1 st2 :
  counters st1 = counters st2 ->
  match run_lines json_loads pl1 st1 lines, run_lines json_loads pl2 st2 lines with
  | inr a, inr b => counters a = counters b
  | inl (e1, _), inl (e2, _) => e1 = e2
  | _, _ => False
  end.
Proof.
  revert st1 st2. induction lines as [|l ls IH]; intros st1 st2 H; simpl; [exact H|].
  pose proof (run_line_counters pl1 pl2 st1 st2 l H) as Hl.
  destruct (run_line json_loads pl1 st1 l) as [[e1 o1] | a];
    destruct (run_line json_loads pl2 st2 l) as [[e2 o2] | b];
    try contradiction; [exact Hl | exact (IH a b Hl)].
Qed.

Lemma run_line_output_true st l st' :
  run_line json_loads true st l = inr st' ->
  exists o, output st' = (output st ++ [o])%list /\ out_line_num o = Some (line_num st)
            /\ line_num st' = S (line_num st).
Proof.
  unfold run_line, on_error.
  destruct (json_loads (py_strip l)) as [err | w].
  - destruct (row st); intros H; inversion H; subst; eexists; simpl; eauto.
  - destruct (process_row w) as [[err | b] w']; intros H; inversion H; subst;
      eexists; simpl; eauto.
Qed.

Lemma run_lines_output_true lines st st' :
  run_lines json_loads true st lines = inr st' ->
  exists rows, output st' = (output st ++ rows)%list
               /\ map out_line_num rows = map Some (seq (line_num st) (length lines)).
Proof.
  revert st. induction lines as [|l ls IH]; intros st H; simpl in H.
  - inversion H; subst. exists []. rewrite app_nil_r. auto.
  - destruct (run_line json_loads true st l) as [e | st1] eqn:E; [discriminate|].
    destruct (run_line_output_true st l st1 E) as (o & Ho & Hn & Hl).
    destruct (IH st1 H) as (rows & Hr & Hm).
    exists (o :: rows). rewrite Hr, Ho, <- app_assoc. split; [reflexivity|].
    simpl. rewrite Hn, Hm, Hl. reflexivity.
Qed.

Lemma run_line_output_false st l st' :
  run_line json_loads false st l = inr st' ->
  (output st' = output st /\ reject_count st' = reject_count st)
  \/ (exists o, output st' = (output st ++ [o])%list /\ is_error_line o = true
                /\ reject_count st' = S (reject_count st)).
Proof.
  unfold run_line, on_error.
  destruct (json_loads (py_strip l)) as [err | w].
  - destruct (row st); intros H; inversion H; subst; right; eexists; simpl; eauto.
  - destruct (process_row w) as [[err | b] w']; intros H; inversion H; subst; simpl.
    + right. eexists; eauto.
    + left. auto.
Qed.

Lemma run_lines_output_false lines st st' :
  run_lines json_loads false st lines = inr st' ->
  exists errs, output st' = (output st ++ errs)%list
               /\ length errs + reject_count st = reject_count st'
               /\ forallb is_error_line errs = true.
Proof.
  revert st. induction lines as [|l ls IH]; intros st H; simpl in H.
  - inversion H; subst. exists []. rewrite app_nil_r. auto.
  - destruct (run_line json_loads false st l) as [e | st1] eqn:E; [discriminate|].
    destruct (IH st1 H) as (errs & Hr & Hc & Hf).
    destruct (run_line_output_false st l st1 E) as [[Ho Hk] | (o & Ho & Hi & Hk)].
    + exists errs. rewrite Hr, Ho. rewrite Hk in Hc. auto.
    + exists (o :: errs). rewrite Hr, Ho, <- app_assoc. split; [reflexivity|].
      simpl. rewrite Hi, Hf. split; [lia | reflexivity].
Qed.

End RunMore.



(** [print_lines] only changes what is printed: the rows read, the two
    counters and whether (and with which exception) [run] raises are the
    same with [print_lines] true or false. *)
Theorem run_print_lines_irrelevant json_loads file :
  match run json_loads true file, run json_loads false file with
  | Finished _ n1 a1 k1, Finished _ n2 a2 k2 => n1 = n2 /\ a1 = a2 /\ k1 = k2
  | Raised e1 _, Raised e2 _ => e1 = e2
  | _, _ => False
  end.
Proof.
  destruct file as [lines|]; [|reflexivity]. unfold run.
  pose proof (run_lines_counters json_loads true false lines init_state init_state eq_refl)
    as H.
  destruct (run_lines json_loads true init_state lines) as [[e1 o1] | a];
    destruct (run_lines json_loads false init_state lines) as [[e2 o2] | b];
    try contradiction; [exact H|].
  unfold counters in H. inversion H. auto.
Qed.

(** With [print_lines] true, a returning [run] prints one line per input
    line, numbered 1, 2, ... in file order, then the two summary lines. *)
Theorem run_print_lines_numbering json_loads lines out n_read n_ok n_rej
  (Hrun : run json_loads true (Some lines) = Finished out n_read n_ok n_rej) :
  exists rows,
    out = (rows ++ [LineText ("Read " ++ show_nat n_read ++ " rows");
                    LineText ("OK rows: " ++ pad4 n_ok ++ ", Rejected rows: " ++ pad4 n_rej)])%list
    /\ map out_line_num rows = map Some (seq 1 (length lines)).
Proof.
  unfold run in Hrun.
  destruct (run_lines json_loads true init_state lines) as [[e o] | st] eqn:E;
    [discriminate|].
  inversion Hrun; subst.
  destruct (run_lines_output_true json_loads lines init_state st E) as (rows & Hr & Hm).
  exists rows. simpl in Hr, Hm. rewrite Hr. auto.
Qed.

Lemma run_print_lines_numbering_witness :
  exists out,
    run sample_loads true (Some [scenario1_line; "not json"]) = Finished out 2 1 1
    /\ exists rows,
         out = (rows ++ [LineText ("Read " ++ show_nat 2 ++ " rows");
                         LineText ("OK rows: " ++ pad4 1 ++ ", Rejected rows: " ++ pad4 1)])%list
         /\ map out_line_num rows = map Some (seq 1 (length [scenario1_line; "not json"])).
Proof.
  set (o := run sample_loads true (Some [scenario1_line; "not json"])).
  assert (E : o = Finished (match o with Finished out _ _ _ => out | Raised _ out => out end)
                           2 1 1) by (vm_compute; reflexivity).
  eexists. split; [exact E|].
  exact (run_print_lines_numbering _ _ _ _ _ _ E).
Defined.

(** With [print_lines] false, a returning [run] prints only error lines,
    one per rejected row, then the two summary lines. *)
Theorem run_quiet_prints_only_rejections json_loads lines out n_read n_ok n_rej
  (Hrun : run json_loads false (Some lines) = Finished out n_read n_ok n_rej) :
  exists errs,
    out = (errs ++ [LineText ("Read " ++ show_nat n_read ++ " rows");
                    LineText ("OK rows: " ++ pad4 n_ok ++ ", Rejected rows: " ++ pad4 n_rej)])%list
    /\ length errs = n_rej
    /\ forallb is_error_line errs = true.
Proof.
  unfold run in Hrun.
  destruct (run_lines json_loads false init_state lines) as [[e o] | st] eqn:E;
    [discriminate|].
  inversion Hrun; subst.
  destruct (run_lines_output_false json_loads lines init_state st E) as (errs & Hr & Hc & Hf).
  exists errs. simpl in Hr, Hc. rewrite Hr. split; [reflexivity|]. split; [lia | exact Hf].
Qed.

Lemma run_quiet_prints_only_rejections_witness :
  exists out,
    run sample_loads false (Some [scenario1_line; "not json"]) = Finished out 2 1 1
    /\ exists errs,
         out = (errs ++ [LineText ("Read " ++ show_nat 2 ++ " rows");
                         LineText ("OK rows: " ++ pad4 1 ++ ", Rejected rows: " ++ pad4 1)])%list
         /\ length errs = 1 /\ forallb is_error_line errs = true.
Proof.
  set (o := run sample_loads false (Some [scenario1_line; "not json"])).
  assert (E : o = Finished (match o with Finished out _ _ _ => out | Raised _ out => out end)
                           2 1 1) by (vm_compute; reflexivity).
  eexists. split; [exact E|].
  exact (run_quiet_prints_only_rejections _ _ _ _ _ _ E).
Defined.

(** In the [run] loop, a line decoding to a dict without a required key is
    rejected and printed with [str] of the KeyError, which quotes the
    message: ['Missing required field: <field>'], with the row unchanged. *)
Theorem run_line_missing_field_message json_loads print_lines st line d pre f post
  (Hdecode : json_loads (py_strip line) = inr (JObj d))
  (Horder : VALID_FIELDS = (pre ++ f :: post)%list)
  (Hpre : forall g, In g pre -> has_key d g = true)
  (Hf : has_key d f = false) :
  run_line json_loads print_lines st line
  = inr (mk_state (Some (JObj d)) (S (line_num st)) (ok_count st) (S (reject_count st))
                  (output st ++ [LineError (line_num st)
                                   ("'Missing required field: " ++ f ++ "'") (JObj d)])).
Proof.
  unfold run_line. rewrite Hdecode.
  assert (Hs : check_schema (JObj d)
               = (inl (KeyError ("Missing required field: " ++ f)), JObj d)).
  { unfold check_schema. rewrite Horder.
    apply check_schema_fields_first_missing; assumption. }
  rewrite (process_row_schema_error _ _ _ Hs). simpl. reflexivity.
Qed.

Lemma run_line_missing_field_message_witness :
  exists st',
    run_line (fun _ => inr (JObj [("license_plate", JStr "ABC123")])) false init_state "x"
    = inr st'
    /\ output st' = [LineError 1 "'Missing required field: make_model'"
                                (JObj [("license_plate", JStr "ABC123")])].
Proof.
  eexists. split.
  - apply (run_line_missing_field_message _ false init_state "x"
             [("license_plate", JStr "ABC123")] ["license_plate"] "make_model"
             ["year"; "registered_name"; "registered_address"; "registered_date"]).
    + reflexivity.
    + reflexivity.
    + intros g [<- | []]. reflexivity.
    + reflexivity.
  - reflexivity.
Defined.
